(** * grafana-monitoring: the demo service of [app/app.py]

    A shallow embedding of the Flask application: the two labelled
    Prometheus counters, the uptime gauge, the stress flag, the lines
    written by the logger, the six routes and the body of the background
    loop [monitor_worker].

    Conventions of the embedding.
    - Text is a Rocq [string] read as a sequence of code points below 128;
      Python's [str.lower], [str.upper] and [int] are rendered on that range.
    - A counter child holds a number of increments ([N]); the client library
      stores it in a double, which is exact below 2^53.
    - [time.time()] and [random.random()] are binary64 values ([float]);
      the clock reading and the random draws of one loop iteration are
      inputs of that iteration.
    - The loop iterations and the request handlers are interleaved as whole
      steps.
    - A view's return value becomes a response object ([make_response]);
      what goes out is [send] of it, which drops the body of a 1xx, 204 or
      304 response. *)

From Stdlib Require Import Floats ZArith Ascii String.
From stdpp Require Import gmap strings list.

#[local] Set Warnings "-inexact-float".
#[local] Open Scope Z_scope.

(** ** The Python built-ins the handlers call *)

Module Py.

Definition is_upper (c : ascii) : bool :=
  let n := nat_of_ascii c in (65 <=? n)%nat && (n <=? 90)%nat.

Definition is_lower (c : ascii) : bool :=
  let n := nat_of_ascii c in (97 <=? n)%nat && (n <=? 122)%nat.

Definition lower_char (c : ascii) : ascii :=
  if is_upper c then ascii_of_nat (nat_of_ascii c + 32) else c.

Definition upper_char (c : ascii) : ascii :=
  if is_lower c then ascii_of_nat (nat_of_ascii c - 32) else c.

Fixpoint map_chars (f : ascii → ascii) (s : string) : string :=
  match s with
  | EmptyString => EmptyString
  | String c s' => String (f c) (map_chars f s')
  end.

(** [str.lower()] and [str.upper()]. *)
Definition lower : string → string := map_chars lower_char.
Definition upper : string → string := map_chars upper_char.

(** The characters [int] skips at both ends of its argument: tab, line
    feed, vertical tab, form feed, carriage return and the space. *)
Definition is_space (c : ascii) : bool :=
  let n := nat_of_ascii c in
  ((9 <=? n)%nat && (n <=? 13)%nat) || (n =? 32)%nat.

Definition is_digit (c : ascii) : bool :=
  let n := nat_of_ascii c in (48 <=? n)%nat && (n <=? 57)%nat.

Definition digit_val (c : ascii) : Z := Z.of_nat (nat_of_ascii c - 48).

Fixpoint lstrip (l : list ascii) : list ascii :=
  match l with
  | c :: l' => if is_space c then lstrip l' else l
  | [] => []
  end.

Definition strip (l : list ascii) : list ascii :=
  rev (lstrip (rev (lstrip l))).

(** Decimal digits with single underscores allowed between two digits;
    [after_digit] tells whether the previous character was a digit. *)
Fixpoint digits (acc : Z) (after_digit : bool) (l : list ascii) : option Z :=
  match l with
  | [] => if after_digit then Some acc else None
  | c :: l' =>
      if is_digit c then digits (10 * acc + digit_val c) true l'
      else if bool_decide (c = "_"%char)
           then (if after_digit then digits acc false l' else None)
           else None
  end.

Definition signed (l : list ascii) : option Z :=
  match l with
  | c :: l' =>
      if bool_decide (c = "-"%char) then Z.opp <$> digits 0 false l'
      else if bool_decide (c = "+"%char) then digits 0 false l'
      else digits 0 false l
  | [] => None
  end.

(** The default of [sys.get_int_max_str_digits()]: the most digits [int]
    converts. Signs, underscores and surrounding blanks are not counted,
    leading zeros are. *)
Definition int_max_str_digits : nat := 4300.

Definition count_digits (l : list ascii) : nat :=
  length (List.filter is_digit l).

(** [int(s)] for a string [s] in base ten: [None] stands for the
    [ValueError] it raises, on a malformed literal and on one with more
    than [int_max_str_digits] digits. *)
Definition int (s : string) : option Z :=
  let l := strip (list_ascii_of_string s) in
  if (count_digits l <=? int_max_str_digits)%nat then signed l else None.

(** [str.isascii()]: every code point is below 128. On such text
    [lower], [upper] and [int] above are those of Python. *)
Definition isascii (s : string) : bool :=
  forallb (λ c, (nat_of_ascii c <? 128)%nat) (list_ascii_of_string s).

End Py.

(** ** Process state *)

Inductive levelname := ERROR | WARNING | INFO.

(** One line of the stream handler on stdout, [[levelname] asctime message],
    without its timestamp. *)
Record log_record := LogRecord { lr_level : levelname; lr_message : string }.

Record app_state := AppState {
  HTTP_CODE_COUNTER : gmap string N;   (* app_http_codes_total, label code *)
  USER_ACTIONS : gmap string N;        (* business_user_actions_total, label action *)
  UPTIME_GAUGE : float;                (* app_uptime_seconds *)
  start_time : float;
  stress_test_active : bool;
  stdout : list log_record
}.

Definition ALL_CODES : list string :=
  ["100"; "101"; "200"; "201"; "301"; "304"; "403"; "404"; "500"; "503"].
Definition ALL_ACTIONS : list string :=
  ["register"; "login"; "reset_pass"; "delete_acc"].

(** *** The metrics client *)

(** [counter.labels(l)]: the child of label value [l], created at zero on
    first use. *)
Definition labels (l : string) (c : gmap string N) : gmap string N :=
  match c !! l with
  | Some _ => c
  | None => <[l := 0%N]> c
  end.

(** [child.inc(amount)] on the child of label value [l]. *)
Definition inc (l : string) (amount : N) (c : gmap string N) : gmap string N :=
  alter (λ v, (v + amount)%N) l c.

(** [counter.labels(l).inc(amount)] *)
Definition labels_inc (l : string) (amount : N) (c : gmap string N)
  : gmap string N :=
  inc l amount (labels l c).

(** The reading of a series, zero when it does not exist yet. *)
Definition reading (c : gmap string N) (l : string) : N := default 0%N (c !! l).

Definition set_codes (f : gmap string N → gmap string N) (st : app_state) :=
  {| HTTP_CODE_COUNTER := f (HTTP_CODE_COUNTER st);
     USER_ACTIONS := USER_ACTIONS st;
     UPTIME_GAUGE := UPTIME_GAUGE st;
     start_time := start_time st;
     stress_test_active := stress_test_active st;
     stdout := stdout st |}.

Definition set_actions (f : gmap string N → gmap string N) (st : app_state) :=
  {| HTTP_CODE_COUNTER := HTTP_CODE_COUNTER st;
     USER_ACTIONS := f (USER_ACTIONS st);
     UPTIME_GAUGE := UPTIME_GAUGE st;
     start_time := start_time st;
     stress_test_active := stress_test_active st;
     stdout := stdout st |}.

(** [UPTIME_GAUGE.set(v)] *)
Definition gauge_set (v : float) (st : app_state) :=
  {| HTTP_CODE_COUNTER := HTTP_CODE_COUNTER st;
     USER_ACTIONS := USER_ACTIONS st;
     UPTIME_GAUGE := v;
     start_time := start_time st;
     stress_test_active := stress_test_active st;
     stdout := stdout st |}.

Definition set_stress (b : bool) (st : app_state) :=
  {| HTTP_CODE_COUNTER := HTTP_CODE_COUNTER st;
     USER_ACTIONS := USER_ACTIONS st;
     UPTIME_GAUGE := UPTIME_GAUGE st;
     start_time := start_time st;
     stress_test_active := b;
     stdout := stdout st |}.

(** *** The logger *)

(** [logger.error], [logger.warning], [logger.info]: the root level is INFO,
    so each of the three writes its line. *)
Definition logger_log (lvl : levelname) (msg : string) (st : app_state) :=
  {| HTTP_CODE_COUNTER := HTTP_CODE_COUNTER st;
     USER_ACTIONS := USER_ACTIONS st;
     UPTIME_GAUGE := UPTIME_GAUGE st;
     start_time := start_time st;
     stress_test_active := stress_test_active st;
     stdout := stdout st ++ [LogRecord lvl msg] |}.

Definition logger_error := logger_log ERROR.
Definition logger_warning := logger_log WARNING.
Definition logger_info := logger_log INFO.

(** *** Module initialisation (lines 19-35) *)

(** [for l in ls: counter.labels(l).inc(0)] *)
Definition register_labels (ls : list string) (c : gmap string N)
  : gmap string N :=
  foldl (λ acc l, labels_inc l 0 acc) c ls.

(** The state once the module body has run at clock reading [t0]. *)
Definition init (t0 : float) : app_state :=
  {| HTTP_CODE_COUNTER := register_labels ALL_CODES ∅;
     USER_ACTIONS := register_labels ALL_ACTIONS ∅;
     UPTIME_GAUGE := 0%float;
     start_time := t0;
     stress_test_active := false;
     stdout := [] |}.

(** ** The background loop [monitor_worker] (lines 37-63) *)

(** What one iteration reads from outside the program: the clock, the two
    indices [random.choice] draws below the lengths of its sequences, and
    the value of [random.random()]. *)
Record tick_env := TickEnv {
  now : float;
  code_ix : nat;
  action_ix : nat;
  rand_val : float
}.

Definition env_ok (e : tick_env) : Prop :=
  (code_ix e < length ALL_CODES)%nat ∧ (action_ix e < length ALL_ACTIONS)%nat.

(** [random.choice(seq)] is [seq[i]] for the drawn index [i]. *)
Definition random_choice (seq : list string) (i : nat) : string :=
  default ""%string (seq !! i).

(** The log statement of an active iteration (lines 53-59). *)
Definition stress_log (r : float) (a c : string) (st : app_state) : app_state :=
  if (r <? 0.1)%float then
    logger_error
      ("STRESS-TEST: Critical system failure detected for action " +:+ a) st
  else if (r <? 0.3)%float then
    logger_warning
      ("STRESS-TEST: Slow response time for action " +:+ a +:+ " with code " +:+ c)
      st
  else if (r <? 0.6)%float then
    logger_info ("STRESS-TEST: User successfully executed " +:+ a) st
  else st.

(** One pass through the body of [while True], with the argument of the
    [time.sleep] that ends it. *)
Definition monitor_iteration (e : tick_env) (st : app_state)
  : app_state * float :=
  let st := gauge_set (now e - start_time st)%float st in
  if stress_test_active st then
    let c := random_choice ALL_CODES (code_ix e) in
    let a := random_choice ALL_ACTIONS (action_ix e) in
    let st := set_codes (labels_inc c 1) st in
    let st := set_actions (labels_inc a 1) st in
    let st := stress_log (rand_val e) a c st in
    (st, 0.3%float)
  else (st, 1%float).

(** The loop never returns; [monitor_worker es] is the state after its first
    [length es] iterations. *)
Definition monitor_worker (es : list tick_env) (st : app_state) : app_state :=
  foldl (λ acc e, (monitor_iteration e acc).1) st es.

(** ** The routes (lines 216-263) *)

Record sample := Sample {
  s_name : string;
  s_labels : list (string * string);
  s_value : N + float
}.

Inductive body :=
| Text (s : string)
| Json (fields : list (string * bool))
| Exposition (samples : list sample).

(** What a view function returns to Flask. *)
Inductive view_rv :=
| Rv (b : body)
| RvStatus (b : body) (status : Z)
| RvStatusHeaders (b : body) (status : Z) (headers : list (string * string)).

Record response := Response {
  status_code : Z;
  data : body;
  extra_headers : list (string * string)
}.

(** Flask's [make_response]: a view that gives no status answers 200. *)
Definition make_response (rv : view_rv) : response :=
  match rv with
  | Rv b => Response 200 b []
  | RvStatus b s => Response s b []
  | RvStatusHeaders b s h => Response s b h
  end.

(** What Werkzeug puts on the wire for a GET or POST: a response whose
    status is 1xx, 204 or 304 is sent without its body. *)
Definition bodyless (status : Z) : bool :=
  ((100 <=? status) && (status <? 200)) || (status =? 204) || (status =? 304).

Definition send (r : response) : response :=
  if bodyless (status_code r)
  then Response (status_code r) (Text "") (extra_headers r)
  else r.

(** [request.form.get(k, d)] and [request.args.get(k, d)] *)
Definition get (m : gmap string string) (k d : string) : string :=
  default d (m !! k).

(** The control-panel document; the routes below do not depend on its
    text, of which the first line is kept. *)
Definition HTML_TEMPLATE : string := "<!DOCTYPE html>".

Definition index (st : app_state) : view_rv * app_state :=
  (Rv (Text HTML_TEMPLATE), st).

Definition handle_log (form : gmap string string) (st : app_state)
  : view_rv * app_state :=
  let log_msg := get form "message" "No message content" in
  let log_lvl := Py.lower (get form "level" "info") in
  let st :=
    if bool_decide (log_lvl = "error"%string) then
      logger_error ("Manual Entry: " +:+ log_msg) st
    else if bool_decide (log_lvl = "warning"%string) then
      logger_warning ("Manual Entry: " +:+ log_msg) st
    else
      logger_info ("Manual Entry: " +:+ log_msg) st in
  (Rv (Text ("Success: Sent as " +:+ Py.upper log_lvl)), st).

Definition handle_status (args : gmap string string) (st : app_state)
  : view_rv * app_state :=
  let code_val := get args "code" "200" in
  let st := set_codes (labels_inc code_val 1) st in
  if bool_decide (code_val ∈ ["100"; "101"; "304"]%string) then
    (RvStatus (Text ("HTTP " +:+ code_val +:+ " recorded")) 200, st)
  else
    match Py.int code_val with
    | Some n => (RvStatus (Text ("HTTP " +:+ code_val +:+ " recorded")) n, st)
    | None => (RvStatus (Text "Invalid code") 400, st)
    end.

Definition handle_action (form : gmap string string) (st : app_state)
  : view_rv * app_state :=
  let act_name := get form "action" "unknown" in
  let st := set_actions (labels_inc act_name 1) st in
  (Rv (Text ("Business Action '" +:+ act_name +:+ "' tracked")), st).

Definition handle_stress (st : app_state) : view_rv * app_state :=
  let st := set_stress (negb (stress_test_active st)) st in
  (Rv (Json [("active"%string, stress_test_active st)]), st).

(** The client library's [generate_latest()], as far as the three metrics
    of this program go: the value line of every child of the two counters
    and the value line of the gauge. The library prints further lines
    around them (a creation time per child, its own process metrics). *)
Definition series (name key : string) (c : gmap string N) : list sample :=
  (λ kv, Sample name [(key, kv.1)] (inl kv.2)) <$> map_to_list c.

Definition generate_latest (st : app_state) : list sample :=
  series "app_http_codes_total" "code" (HTTP_CODE_COUNTER st)
  ++ series "business_user_actions_total" "action" (USER_ACTIONS st)
  ++ [Sample "app_uptime_seconds" [] (inr (UPTIME_GAUGE st))].

(** The library's constant, in the text of its 0.0.4 exposition format. *)
Definition CONTENT_TYPE_LATEST : string :=
  "text/plain; version=0.0.4; charset=utf-8".

Definition handle_metrics (st : app_state) : view_rv * app_state :=
  (RvStatusHeaders (Exposition (generate_latest st)) 200
     [("Content-Type"%string, CONTENT_TYPE_LATEST)], st).

(** ** The process as a transition system *)

Inductive event :=
| GET_index
| POST_log (form : gmap string string)
| GET_status (args : gmap string string)
| POST_action (form : gmap string string)
| POST_stress
| GET_metrics
| Tick (e : tick_env).

Definition serve (ev : event) (st : app_state) : option response * app_state :=
  match ev with
  | GET_index => prod_map (Some ∘ send ∘ make_response) id (index st)
  | POST_log form => prod_map (Some ∘ send ∘ make_response) id (handle_log form st)
  | GET_status args => prod_map (Some ∘ send ∘ make_response) id (handle_status args st)
  | POST_action form => prod_map (Some ∘ send ∘ make_response) id (handle_action form st)
  | POST_stress => prod_map (Some ∘ send ∘ make_response) id (handle_stress st)
  | GET_metrics => prod_map (Some ∘ send ∘ make_response) id (handle_metrics st)
  | Tick e => (None, (monitor_iteration e st).1)
  end.

Definition step (ev : event) (st : app_state) : app_state := (serve ev st).2.

Definition run (evs : list event) (st : app_state) : app_state :=
  foldl (λ acc ev, step ev acc) st evs.

(** The responses a sequence of events produces, in order. *)
Fixpoint responses (evs : list event) (st : app_state) : list response :=
  match evs with
  | [] => []
  | ev :: evs' =>
      let '(r, st') := serve ev st in
      match r with
      | Some r => r :: responses evs' st'
      | None => responses evs' st'
      end
  end.

(** ** Vocabulary of the statements *)

(** The codes [handle_status] answers with 200 whatever their value. *)
Definition passthrough_codes : list string := ["100"; "101"; "304"]%string.

Definition recorded (code_val : string) : body :=
  Text ("HTTP " +:+ code_val +:+ " recorded").

(** *** Log levels *)

(** The level a submitted level string is logged at. *)
Definition resolved_level (level : string) : levelname :=
  if bool_decide (Py.lower level = "error"%string) then ERROR
  else if bool_decide (Py.lower level = "warning"%string) then WARNING
  else INFO.

Definition level_text (lvl : levelname) : string :=
  match lvl with
  | ERROR => "ERROR"
  | WARNING => "WARNING"
  | INFO => "INFO"
  end.

(** *** Stress toggle *)

Definition active_json (b : bool) : body := Json [("active"%string, b)].

Definition three_toggles : list event := [POST_stress; POST_stress; POST_stress].

(** *** Lines of an active iteration *)

Definition stress_lines (r : float) (a c : string) : list log_record :=
  if (r <? 0.1)%float then
    [LogRecord ERROR
       ("STRESS-TEST: Critical system failure detected for action " +:+ a)]
  else if (r <? 0.3)%float then
    [LogRecord WARNING
       ("STRESS-TEST: Slow response time for action " +:+ a
        +:+ " with code " +:+ c)]
  else if (r <? 0.6)%float then
    [LogRecord INFO ("STRESS-TEST: User successfully executed " +:+ a)]
  else [].

(** *** Export *)

Definition zero_sample (name key l : string) : sample :=
  Sample name [(key, l)] (inl 0%N).

(** *** Order on counters *)

(** Every series of [c] is still in [c'] and reads at least as much. *)
Definition counter_le (c c' : gmap string N) : Prop :=
  ∀ l v, c !! l = Some v → ∃ v', c' !! l = Some v' ∧ (v ≤ v')%N.

Definition counts_le (st st' : app_state) : Prop :=
  counter_le (HTTP_CODE_COUNTER st) (HTTP_CODE_COUNTER st')
  ∧ counter_le (USER_ACTIONS st) (USER_ACTIONS st').

(** *** Sums, toggles and declared labels *)

(** The sum of all series of a counter. *)
Definition total (c : gmap string N) : N :=
  map_fold (λ _ v acc, (v + acc)%N) 0%N c.

Definition is_toggle (ev : event) : bool :=
  match ev with
  | POST_stress => true
  | _ => false
  end.

(** The number of POST /stress requests among [evs]. *)
Definition toggles (evs : list event) : nat :=
  length (List.filter is_toggle evs).

(** An event that only names label values of [ALL_CODES] and
    [ALL_ACTIONS]. *)
Definition declared (ev : event) : Prop :=
  match ev with
  | GET_status args => get args "code" "200" ∈ ALL_CODES
  | POST_action form => get form "action" "unknown" ∈ ALL_ACTIONS
  | Tick e => env_ok e
  | _ => True
  end.

(** A string made of decimal digits only. *)
Definition all_digits (s : string) : bool :=
  forallb Py.is_digit (list_ascii_of_string s).

(** The lines an event writes to stdout in state [st]. *)
Definition written (ev : event) (st : app_state) : list log_record :=
  match ev with
  | POST_log form =>
      [LogRecord (resolved_level (get form "level" "info"))
         ("Manual Entry: " +:+ get form "message" "No message content")]
  | Tick e =>
      if stress_test_active st then
        stress_lines (rand_val e)
          (random_choice ALL_ACTIONS (action_ix e))
          (random_choice ALL_CODES (code_ix e))
      else []
  | _ => []
  end.

Definition is_tick (ev : event) : bool :=
  match ev with
  | Tick _ => true
  | _ => false
  end.

(** The export line of a counter series. *)
Definition counter_sample (name key l : string) (v : N) : sample :=
  Sample name [(key, l)] (inl v).

(** A decimal digit, and a character [int] does not skip. *)
Definition digit (c : ascii) : Prop := Py.is_digit c = true.
Definition nonspace (c : ascii) : Prop := Py.is_space c = false.

(** The string of [n] copies of the character [c]. *)
Fixpoint repeat_char (c : ascii) (n : nat) : string :=
  match n with
  | O => EmptyString
  | S n' => String c (repeat_char c n')
  end.

(** The body that goes out with a status: none for 1xx, 204 and 304. *)
Definition sent_body (status : Z) (b : body) : body :=
  if bodyless status then Text "" else b.

(** * Properties *)

(** ** The built-ins on sample inputs *)

Example int_plain : Py.int "404" = Some 404.
Proof. reflexivity. Qed.

Example int_spaces_sign_underscore : Py.int " +4_04 " = Some 404.
Proof. reflexivity. Qed.

Example int_negative : Py.int "-12" = Some (-12).
Proof. reflexivity. Qed.

Example int_leading_zeros : Py.int "007" = Some 7.
Proof. reflexivity. Qed.

Example int_rejects :
  Py.int <$> ["abc"; ""; " "; "1__0"; "_1"; "1_"; "0x10"; "4 04"; "- 1"; "+";
              "1.0"; "1e3"]%string
  = replicate 12 None.
Proof. reflexivity. Qed.

Example lower_upper_mixed :
  Py.lower "WaRning!" = "warning!"%string
  ∧ Py.upper (Py.lower "Debug1") = "DEBUG1"%string.
Proof. split; reflexivity. Qed.

(** ** Counters *)

Section counter_facts.
Implicit Types (c : gmap string N) (l : string) (a : N).

Lemma lookup_labels_eq l c : labels l c !! l = Some (reading c l).
Proof.
  unfold labels, reading. destruct (c !! l) as [v|] eqn:E; simpl.
  - exact E.
  - apply lookup_insert_eq.
Qed.

Lemma lookup_labels_ne l l' c : l ≠ l' → labels l c !! l' = c !! l'.
Proof.
  intros Hne. unfold labels. destruct (c !! l); [done|].
  by rewrite lookup_insert_ne.
Qed.

Lemma lookup_labels_inc_eq l a c :
  labels_inc l a c !! l = Some (reading c l + a)%N.
Proof.
  unfold labels_inc, inc. rewrite lookup_alter_eq, lookup_labels_eq. done.
Qed.

Lemma lookup_labels_inc_ne l l' a c :
  l ≠ l' → labels_inc l a c !! l' = c !! l'.
Proof.
  intros Hne. unfold labels_inc, inc.
  rewrite lookup_alter_ne by done. by apply lookup_labels_ne.
Qed.

Lemma reading_labels_inc_eq l a c :
  reading (labels_inc l a c) l = (reading c l + a)%N.
Proof. unfold reading at 1. by rewrite lookup_labels_inc_eq. Qed.

Lemma labels_inc_changes l c : labels_inc l 1 c ≠ c.
Proof.
  intros Heq. pose proof (lookup_labels_inc_eq l 1 c) as H.
  rewrite Heq in H. unfold reading in H.
  destruct (c !! l) as [v|]; simplify_eq/=. lia.
Qed.
End counter_facts.

(** ** GET /status *)

Lemma handle_status_state args st :
  (handle_status args st).2
  = set_codes (labels_inc (get args "code" "200") 1) st.
Proof.
  unfold handle_status. case_bool_decide; [done|].
  by destruct (Py.int _).
Qed.

(** C3. A code outside 100, 101 and 304 that [int] rejects is answered
    with HTTP 400 and the body "Invalid code". *)
Theorem handle_status_invalid_code (args : gmap string string) (st : app_state) :
  let code_val := get args "code" "200" in
  code_val ∉ passthrough_codes →
  Py.int code_val = None →
  make_response (handle_status args st).1
  = Response 400 (Text "Invalid code") [].
Proof.
  intros code_val Hout Hint. unfold handle_status.
  fold code_val. rewrite bool_decide_eq_false_2 by exact Hout.
  by rewrite Hint.
Qed.

Lemma handle_status_invalid_code_witness :
  let args : gmap string string := {["code" := "abc"]}%string in
  get args "code" "200" = "abc"%string
  ∧ make_response (handle_status args (init 0)).1
    = Response 400 (Text "Invalid code") [].
Proof.
  intros args. split; [reflexivity|].
  apply (handle_status_invalid_code args (init 0)).
  - apply (bool_decide_unpack _). vm_compute. exact I.
  - vm_compute. reflexivity.
Defined.

(** What the view returns for an accepted code. *)
Lemma handle_status_view (args : gmap string string) (st : app_state) :
  let code_val := get args "code" "200" in
  let r := make_response (handle_status args st).1 in
  (code_val ∈ passthrough_codes → r = Response 200 (recorded code_val) [])
  ∧ (∀ n : Z, code_val ∉ passthrough_codes → Py.int code_val = Some n →
     r = Response n (recorded code_val) []).
Proof.
  intros code_val r. subst r. unfold handle_status. fold code_val.
  split.
  - intros Hin. by rewrite bool_decide_eq_true_2 by exact Hin.
  - intros n Hout Hint. rewrite bool_decide_eq_false_2 by exact Hout.
    by rewrite Hint.
Qed.

Lemma send_status (r : response) : status_code (send r) = status_code r.
Proof. unfold send. by destruct (bodyless (status_code r)). Qed.

Lemma send_data (r : response) :
  data (send r) = sent_body (status_code r) (data r).
Proof. unfold send, sent_body. by destruct (bodyless (status_code r)). Qed.

(** C4 as stated fails: the code 204 is none of 100, 101 and 304 and [int]
    accepts it, yet the response goes out with status 204 and no body, so
    its body does not name the code. *)
Lemma handle_status_204_sent_without_body :
  let args : gmap string string := {["code" := "204"]}%string in
  (get args "code" "200" ∉ passthrough_codes)
  ∧ Py.int (get args "code" "200") = Some 204
  ∧ (serve (GET_status args) (init 0)).1 = Some (Response 204 (Text "") [])
  ∧ Text "" ≠ recorded (get args "code" "200").
Proof.
  intros args. split_and!.
  - apply (bool_decide_unpack _). vm_compute. exact I.
  - vm_compute. reflexivity.
  - vm_compute. reflexivity.
  - vm_compute. discriminate.
Qed.

(** C4, amended. The codes 100, 101 and 304 are answered with HTTP 200 and
    a body naming the code. Any other code that [int] accepts is answered
    with that integer as status; the body names the code, unless the status
    is 1xx, 204 or 304, which goes out without a body. *)
Theorem handle_status_sent (args : gmap string string) (st : app_state) :
  let code_val := get args "code" "200" in
  let r := send (make_response (handle_status args st).1) in
  (serve (GET_status args) st).1 = Some r
  ∧ (code_val ∈ passthrough_codes →
     status_code r = 200 ∧ data r = recorded code_val)
  ∧ (∀ n : Z, code_val ∉ passthrough_codes → Py.int code_val = Some n →
     status_code r = n
     ∧ data r = if bodyless n then Text "" else recorded code_val).
Proof.
  intros code_val r. subst r.
  destruct (handle_status_view args st) as [Hspecial Hplain].
  fold code_val in Hspecial, Hplain. split_and!.
  - reflexivity.
  - intros Hin. rewrite (Hspecial Hin). split; reflexivity.
  - intros n Hout Hint. rewrite (Hplain n Hout Hint).
    rewrite send_status, send_data. split; reflexivity.
Qed.

Lemma handle_status_sent_witness :
  let a100 : gmap string string := {["code" := "100"]}%string in
  let a404 : gmap string string := {["code" := "404"]}%string in
  let a204 : gmap string string := {["code" := "204"]}%string in
  (status_code (send (make_response (handle_status a100 (init 0)).1)) = 200
   ∧ data (send (make_response (handle_status a100 (init 0)).1))
     = Text "HTTP 100 recorded")
  ∧ (status_code (send (make_response (handle_status a404 (init 0)).1)) = 404
     ∧ data (send (make_response (handle_status a404 (init 0)).1))
       = Text "HTTP 404 recorded")
  ∧ (status_code (send (make_response (handle_status a204 (init 0)).1)) = 204
     ∧ data (send (make_response (handle_status a204 (init 0)).1))
       = Text "").
Proof.
  intros a100 a404 a204. split_and!.
  - apply (proj1 (proj2 (handle_status_sent a100 (init 0)))).
    apply (bool_decide_unpack _). vm_compute. exact I.
  - apply (proj1 (proj2 (handle_status_sent a100 (init 0)))).
    apply (bool_decide_unpack _). vm_compute. exact I.
  - apply (proj2 (proj2 (handle_status_sent a404 (init 0))) 404).
    + apply (bool_decide_unpack _). vm_compute. exact I.
    + vm_compute. reflexivity.
  - apply (proj2 (proj2 (handle_status_sent a404 (init 0))) 404).
    + apply (bool_decide_unpack _). vm_compute. exact I.
    + vm_compute. reflexivity.
  - apply (proj2 (proj2 (handle_status_sent a204 (init 0))) 204).
    + apply (bool_decide_unpack _). vm_compute. exact I.
    + vm_compute. reflexivity.
  - apply (proj2 (proj2 (handle_status_sent a204 (init 0))) 204).
    + apply (bool_decide_unpack _). vm_compute. exact I.
    + vm_compute. reflexivity.
Defined.

(** C9. Every GET /status adds one to the series labelled with the
    submitted string, whatever the validation then decides: the new state
    is the same in all three branches, the other series keep their values,
    and the registry differs from the one before, also when the answer is
    400 "Invalid code". *)
Theorem handle_status_counts_first (args : gmap string string) (st : app_state) :
  let code_val := get args "code" "200" in
  let st' := (handle_status args st).2 in
  st' = set_codes (labels_inc code_val 1) st
  ∧ HTTP_CODE_COUNTER st' !! code_val
    = Some (reading (HTTP_CODE_COUNTER st) code_val + 1)%N
  ∧ (∀ l, l ≠ code_val → HTTP_CODE_COUNTER st' !! l = HTTP_CODE_COUNTER st !! l)
  ∧ HTTP_CODE_COUNTER st' ≠ HTTP_CODE_COUNTER st
  ∧ (code_val ∉ passthrough_codes → Py.int code_val = None →
     status_code (make_response (handle_status args st).1) = 400
     ∧ reading (HTTP_CODE_COUNTER st') code_val
       = (reading (HTTP_CODE_COUNTER st) code_val + 1)%N).
Proof.
  intros code_val st'. subst st'. rewrite handle_status_state. fold code_val.
  cbn [set_codes HTTP_CODE_COUNTER].
  split_and!.
  - done.
  - apply lookup_labels_inc_eq.
  - intros l Hne. by apply lookup_labels_inc_ne.
  - apply labels_inc_changes.
  - intros Hout Hint. split.
    + unfold handle_status. fold code_val.
      rewrite bool_decide_eq_false_2 by exact Hout. by rewrite Hint.
    + apply reading_labels_inc_eq.
Qed.

Lemma handle_status_counts_first_witness :
  let args : gmap string string := {["code" := "abc"]}%string in
  let st' := (handle_status args (init 0)).2 in
  status_code (make_response (handle_status args (init 0)).1) = 400
  ∧ reading (HTTP_CODE_COUNTER st') "abc" = 1%N.
Proof.
  intros args st'.
  apply (proj2 (proj2 (proj2 (proj2
           (handle_status_counts_first args (init 0)))))).
  - apply (bool_decide_unpack _). vm_compute. exact I.
  - vm_compute. reflexivity.
Defined.

(** C10. Without a [code] parameter the handler does what it does for
    [code=200]: the "200" series gains one and the answer is HTTP 200 with
    the body "HTTP 200 recorded". *)
Theorem handle_status_default_code (args : gmap string string) (st : app_state) :
  args !! "code"%string = None →
  handle_status args st = handle_status {["code" := "200"]}%string st
  ∧ make_response (handle_status args st).1
    = Response 200 (Text "HTTP 200 recorded") []
  ∧ HTTP_CODE_COUNTER (handle_status args st).2 !! "200"%string
    = Some (reading (HTTP_CODE_COUNTER st) "200" + 1)%N
  ∧ (∀ l, l ≠ "200"%string →
     HTTP_CODE_COUNTER (handle_status args st).2 !! l
     = HTTP_CODE_COUNTER st !! l).
Proof.
  intros Hno.
  assert (Hget : get args "code" "200" = "200"%string)
    by (unfold get; by rewrite Hno).
  assert (Hrun : handle_status args st
                 = (RvStatus (Text "HTTP 200 recorded") 200,
                    set_codes (labels_inc "200" 1) st)).
  { unfold handle_status. rewrite Hget. reflexivity. }
  split_and!.
  - rewrite Hrun. reflexivity.
  - by rewrite Hrun.
  - rewrite Hrun. apply lookup_labels_inc_eq.
  - intros l Hne. rewrite Hrun. by apply lookup_labels_inc_ne.
Qed.

Lemma handle_status_default_code_witness :
  make_response (handle_status ∅ (init 0)).1
  = Response 200 (Text "HTTP 200 recorded") []
  ∧ HTTP_CODE_COUNTER (handle_status ∅ (init 0)).2 !! "200"%string
    = Some 1%N.
Proof.
  destruct (handle_status_default_code ∅ (init 0)) as (_ & Hr & Hc & _).
  - apply lookup_empty.
  - split; [exact Hr | exact Hc].
Defined.

(** ** POST /log *)

(** The handler always answers 200, writes exactly one line at the resolved
    level, and builds its confirmation from the submitted level string. *)
Lemma handle_log_total (form : gmap string string) (st : app_state) :
  let level := get form "level" "info" in
  let '(rv, st') := handle_log form st in
  make_response rv
  = Response 200 (Text ("Success: Sent as " +:+ Py.upper (Py.lower level))) []
  ∧ stdout st'
    = stdout st ++ [LogRecord (resolved_level level)
                      ("Manual Entry: " +:+ get form "message" "No message content")]
  ∧ HTTP_CODE_COUNTER st' = HTTP_CODE_COUNTER st
  ∧ USER_ACTIONS st' = USER_ACTIONS st.
Proof.
  unfold handle_log, resolved_level. cbn zeta.
  repeat case_bool_decide; done.
Qed.

(** On the three levels the logger knows, the confirmation names the level
    of the line that was written. *)
Lemma handle_log_recognized_echo (form : gmap string string) (st : app_state) :
  Py.lower (get form "level" "info") ∈ ["error"; "warning"; "info"]%string →
  (handle_log form st).1
  = Rv (Text ("Success: Sent as "
              +:+ level_text (resolved_level (get form "level" "info")))).
Proof.
  intros Hin. unfold handle_log, resolved_level. cbn zeta.
  set (lvl := Py.lower _) in *.
  apply elem_of_cons in Hin as [->|Hin]; [reflexivity|].
  apply elem_of_cons in Hin as [->|Hin]; [reflexivity|].
  apply elem_of_cons in Hin as [->|Hin]; [reflexivity|].
  by apply elem_of_nil in Hin.
Qed.

(** C1, at the form [level=debug]: the line is written at INFO, the answer
    is HTTP 200, and the confirmation reads "Sent as DEBUG", not "Sent as
    INFO". *)
Theorem handle_log_debug_echo (st : app_state) :
  let form : gmap string string :=
    {["message" := "disk check"; "level" := "debug"]}%string in
  let '(rv, st') := handle_log form st in
  resolved_level "debug" = INFO
  ∧ stdout st' = stdout st ++ [LogRecord INFO "Manual Entry: disk check"]
  ∧ make_response rv = Response 200 (Text "Success: Sent as DEBUG") []
  ∧ make_response rv ≠ Response 200 (Text "Success: Sent as INFO") [].
Proof.
  cbn zeta.
  pose proof (handle_log_total
    ({["message" := "disk check"; "level" := "debug"]}%string) st) as H.
  cbn zeta in H. destruct (handle_log _ st) as [rv st'].
  destruct H as (Hrv & Hout & _).
  split_and!.
  - reflexivity.
  - rewrite Hout. reflexivity.
  - rewrite Hrv. reflexivity.
  - rewrite Hrv. discriminate.
Qed.

(** ** POST /stress *)

(** C2 as stated fails: from the idle state the three answers are not
    false, true, false. *)
Lemma three_toggles_not_false_true_false :
  data <$> responses three_toggles (init 0)
  ≠ [active_json false; active_json true; active_json false].
Proof. vm_compute. discriminate. Qed.

(** C2, amended. A toggle flips the flag and answers with the new value;
    two toggles restore the state; from the idle state three toggles answer
    true, false, true. *)
Theorem handle_stress_toggle (st : app_state) :
  make_response (handle_stress st).1
  = Response 200 (active_json (negb (stress_test_active st))) []
  ∧ stress_test_active (handle_stress st).2 = negb (stress_test_active st)
  ∧ (handle_stress (handle_stress st).2).2 = st
  ∧ (stress_test_active st = false →
     data <$> responses three_toggles st
     = [active_json true; active_json false; active_json true]).
Proof.
  destruct st as [codes acts g t0 b out]. split_and!.
  - reflexivity.
  - reflexivity.
  - unfold handle_stress, set_stress. cbn. by rewrite negb_involutive.
  - cbn. intros ->. reflexivity.
Qed.

Lemma handle_stress_toggle_witness :
  stress_test_active (init 0) = false
  ∧ data <$> responses three_toggles (init 0)
    = [active_json true; active_json false; active_json true].
Proof.
  split; [reflexivity|].
  apply (proj2 (proj2 (proj2 (handle_stress_toggle (init 0))))).
  reflexivity.
Defined.

(** ** The background loop *)

Lemma monitor_iteration_idle_eq (e : tick_env) (st : app_state) :
  stress_test_active st = false →
  monitor_iteration e st
  = (gauge_set (now e - start_time st)%float st, 1%float).
Proof. intros Hidle. unfold monitor_iteration. cbn. by rewrite Hidle. Qed.

(** C8. An iteration that finds the flag false sets the uptime gauge to the
    clock reading minus [start_time], sleeps one second, and leaves both
    counters, the flag, the start time and the log output as they were. *)
Theorem monitor_iteration_idle (e : tick_env) (st : app_state) :
  stress_test_active st = false →
  let '(st', pause) := monitor_iteration e st in
  pause = 1%float
  ∧ UPTIME_GAUGE st' = (now e - start_time st)%float
  ∧ HTTP_CODE_COUNTER st' = HTTP_CODE_COUNTER st
  ∧ USER_ACTIONS st' = USER_ACTIONS st
  ∧ stdout st' = stdout st
  ∧ stress_test_active st' = stress_test_active st
  ∧ start_time st' = start_time st.
Proof.
  intros Hidle. rewrite (monitor_iteration_idle_eq e st Hidle).
  by split_and!.
Qed.

Lemma monitor_iteration_idle_witness :
  let '(st', pause) := monitor_iteration (TickEnv 42 7 2 0.05) (init 30) in
  pause = 1%float
  ∧ UPTIME_GAUGE st' = 12%float
  ∧ HTTP_CODE_COUNTER st' = HTTP_CODE_COUNTER (init 30)
  ∧ USER_ACTIONS st' = USER_ACTIONS (init 30)
  ∧ stdout st' = []
  ∧ stress_test_active st' = false
  ∧ start_time st' = 30%float.
Proof.
  apply (monitor_iteration_idle (TickEnv 42 7 2 0.05) (init 30)).
  reflexivity.
Defined.

Lemma random_choice_lookup (seq : list string) (i : nat) :
  (i < length seq)%nat → seq !! i = Some (random_choice seq i).
Proof.
  intros Hlt. unfold random_choice.
  destruct (lookup_lt_is_Some_2 seq i Hlt) as [x ->]. done.
Qed.

(** C5. An iteration that finds the flag true draws one of the ten codes
    and one of the four actions by index (the listed values are pairwise
    distinct, so equally likely indices give equally likely values), adds
    one to exactly those two series, and writes the line selected by the
    draw [r]: error below 0.1, else warning below 0.3, else info below 0.6,
    else none. *)
Theorem monitor_iteration_active (e : tick_env) (st : app_state) :
  stress_test_active st = true →
  env_ok e →
  let c := random_choice ALL_CODES (code_ix e) in
  let a := random_choice ALL_ACTIONS (action_ix e) in
  let st' := (monitor_iteration e st).1 in
  (length ALL_CODES = 10%nat ∧ NoDup ALL_CODES ∧ ALL_CODES !! code_ix e = Some c)
  ∧ (length ALL_ACTIONS = 4%nat ∧ NoDup ALL_ACTIONS
     ∧ ALL_ACTIONS !! action_ix e = Some a)
  ∧ (HTTP_CODE_COUNTER st' !! c = Some (reading (HTTP_CODE_COUNTER st) c + 1)%N
     ∧ ∀ l, l ≠ c → HTTP_CODE_COUNTER st' !! l = HTTP_CODE_COUNTER st !! l)
  ∧ (USER_ACTIONS st' !! a = Some (reading (USER_ACTIONS st) a + 1)%N
     ∧ ∀ l, l ≠ a → USER_ACTIONS st' !! l = USER_ACTIONS st !! l)
  ∧ stdout st' = stdout st ++ stress_lines (rand_val e) a c.
Proof.
  intros Hactive [Hci Hai] c a st'.
  assert (Hst' : st' = stress_log (rand_val e) a c
            (set_actions (labels_inc a 1)
               (set_codes (labels_inc c 1)
                  (gauge_set (now e - start_time st)%float st)))).
  { subst st'. unfold monitor_iteration. cbn. by rewrite Hactive. }
  assert (Hkeep : ∀ s,
            HTTP_CODE_COUNTER (stress_log (rand_val e) a c s) = HTTP_CODE_COUNTER s
            ∧ USER_ACTIONS (stress_log (rand_val e) a c s) = USER_ACTIONS s
            ∧ stdout (stress_log (rand_val e) a c s)
              = stdout s ++ stress_lines (rand_val e) a c).
  { intros s. unfold stress_log, stress_lines.
    destruct (_ <? 0.1)%float; [done|].
    destruct (_ <? 0.3)%float; [done|].
    destruct (_ <? 0.6)%float; [done|].
    by rewrite app_nil_r. }
  rewrite Hst'. destruct (Hkeep (set_actions (labels_inc a 1)
               (set_codes (labels_inc c 1)
                  (gauge_set (now e - start_time st)%float st))))
    as (-> & -> & ->).
  cbn [set_actions set_codes gauge_set HTTP_CODE_COUNTER USER_ACTIONS stdout].
  split_and!.
  - reflexivity.
  - apply (bool_decide_unpack _). vm_compute. exact I.
  - by apply random_choice_lookup.
  - reflexivity.
  - apply (bool_decide_unpack _). vm_compute. exact I.
  - by apply random_choice_lookup.
  - apply lookup_labels_inc_eq.
  - intros l Hne. by apply lookup_labels_inc_ne.
  - apply lookup_labels_inc_eq.
  - intros l Hne. by apply lookup_labels_inc_ne.
  - reflexivity.
Qed.

Lemma monitor_iteration_active_witness :
  let e := TickEnv 1005 7 1 0.2 in
  let st := set_stress true (init 1000) in
  let st' := (monitor_iteration e st).1 in
  HTTP_CODE_COUNTER st' !! "404"%string = Some 1%N
  ∧ USER_ACTIONS st' !! "login"%string = Some 1%N
  ∧ stdout st'
    = [LogRecord WARNING
         "STRESS-TEST: Slow response time for action login with code 404"].
Proof.
  intros e st st'.
  destruct (monitor_iteration_active e st) as (_ & _ & [Hc _] & [Ha _] & Hout).
  - reflexivity.
  - unfold env_ok. simpl. lia.
  - split_and!; [exact Hc | exact Ha | exact Hout].
Defined.

(** ** Initialisation and export *)

Section registration.
Implicit Types (c : gmap string N) (l : string) (ls : list string).

Lemma reading_labels_inc_0 x l c : reading (labels_inc x 0 c) l = reading c l.
Proof.
  unfold reading at 1. destruct (decide (x = l)) as [->|Hne].
  - rewrite lookup_labels_inc_eq. simpl. lia.
  - by rewrite lookup_labels_inc_ne.
Qed.

Lemma register_labels_lookup ls : ∀ c l,
  register_labels ls c !! l
  = if decide (l ∈ ls) then Some (reading c l) else c !! l.
Proof.
  induction ls as [|x ls IH]; intros c l.
  - rewrite decide_False by apply not_elem_of_nil. done.
  - change (register_labels (x :: ls) c)
      with (register_labels ls (labels_inc x 0 c)).
    rewrite IH, reading_labels_inc_0.
    destruct (decide (l ∈ ls)) as [Hin|Hnin].
    + rewrite decide_True by (by right). done.
    + destruct (decide (x = l)) as [->|Hne].
      * rewrite decide_True by left.
        rewrite lookup_labels_inc_eq. f_equal. lia.
      * rewrite decide_False
          by (intros Hin; apply elem_of_cons in Hin as [Heq|Hin]; congruence).
        by apply lookup_labels_inc_ne.
Qed.

Lemma register_labels_fresh ls l :
  l ∈ ls → register_labels ls ∅ !! l = Some 0%N.
Proof.
  intros Hin. rewrite register_labels_lookup, decide_True by done.
  unfold reading. by rewrite lookup_empty.
Qed.

Lemma elem_of_series name key c l v :
  c !! l = Some v → Sample name [(key, l)] (inl v) ∈ series name key c.
Proof.
  intros Hl. unfold series. apply list_elem_of_fmap.
  exists (l, v). split; [done|]. by apply elem_of_map_to_list.
Qed.
End registration.

(** While the flag is false the loop keeps counters, flag and output. *)
Lemma monitor_worker_idle (es : list tick_env) : ∀ st,
  stress_test_active st = false →
  HTTP_CODE_COUNTER (monitor_worker es st) = HTTP_CODE_COUNTER st
  ∧ USER_ACTIONS (monitor_worker es st) = USER_ACTIONS st
  ∧ stress_test_active (monitor_worker es st) = false
  ∧ stdout (monitor_worker es st) = stdout st.
Proof.
  induction es as [|e es IH]; intros st Hidle; [done|].
  change (monitor_worker (e :: es) st)
    with (monitor_worker es (monitor_iteration e st).1).
  rewrite (monitor_iteration_idle_eq e st Hidle). cbn [fst].
  destruct (IH (gauge_set (now e - start_time st)%float st) Hidle)
    as (-> & -> & -> & ->).
  done.
Qed.

(** C6. After the module body has run, and through any number of loop
    iterations before the first request, each of the ten codes and each of
    the four actions has a series reading zero, and the export of
    GET /metrics lists every one of them with value zero. *)
Theorem zero_series_before_traffic (t0 : float) (es : list tick_env) :
  let st := monitor_worker es (init t0) in
  let r := make_response (handle_metrics st).1 in
  (status_code r = 200 ∧ data r = Exposition (generate_latest st))
  ∧ Forall (λ c, HTTP_CODE_COUNTER st !! c = Some 0%N
                 ∧ zero_sample "app_http_codes_total" "code" c
                   ∈ generate_latest st) ALL_CODES
  ∧ Forall (λ a, USER_ACTIONS st !! a = Some 0%N
                 ∧ zero_sample "business_user_actions_total" "action" a
                   ∈ generate_latest st) ALL_ACTIONS.
Proof.
  intros st r.
  destruct (monitor_worker_idle es (init t0) eq_refl) as (Hc & Ha & _ & _).
  fold st in Hc, Ha. cbn [init HTTP_CODE_COUNTER USER_ACTIONS] in Hc, Ha.
  split; [done|]. unfold generate_latest, zero_sample. split.
  - apply Forall_forall. intros c Hin.
    assert (Hz : HTTP_CODE_COUNTER st !! c = Some 0%N)
      by (rewrite Hc; by apply register_labels_fresh).
    split; [exact Hz|].
    apply elem_of_app. left. by apply elem_of_series.
  - apply Forall_forall. intros a Hin.
    assert (Hz : USER_ACTIONS st !! a = Some 0%N)
      by (rewrite Ha; by apply register_labels_fresh).
    split; [exact Hz|].
    apply elem_of_app. right. apply elem_of_app. left. by apply elem_of_series.
Qed.

(** ** Monotonicity of the counters *)

Section monotone.
Implicit Types (c : gmap string N) (st : app_state).

Lemma counter_le_refl c : counter_le c c.
Proof. intros l v Hl. exists v. split; [done|lia]. Qed.

Lemma counter_le_trans c1 c2 c3 :
  counter_le c1 c2 → counter_le c2 c3 → counter_le c1 c3.
Proof.
  intros H12 H23 l v Hl.
  destruct (H12 l v Hl) as (v2 & Hl2 & Hle2).
  destruct (H23 l v2 Hl2) as (v3 & Hl3 & Hle3).
  exists v3. split; [done|lia].
Qed.

Lemma counter_le_reading c c' l :
  counter_le c c' → (reading c l ≤ reading c' l)%N.
Proof.
  intros Hle. unfold reading. destruct (c !! l) as [v|] eqn:E; simpl; [|lia].
  destruct (Hle l v E) as (v' & -> & Hv). done.
Qed.

Lemma labels_inc_le l a c : counter_le c (labels_inc l a c).
Proof.
  intros k v Hk. destruct (decide (l = k)) as [->|Hne].
  - rewrite lookup_labels_inc_eq. unfold reading. rewrite Hk. simpl.
    eexists. split; [done|lia].
  - rewrite lookup_labels_inc_ne by done. exists v. split; [done|lia].
Qed.

Lemma register_labels_le ls : ∀ c, counter_le c (register_labels ls c).
Proof.
  induction ls as [|x ls IH]; intros c; [apply counter_le_refl|].
  change (register_labels (x :: ls) c)
    with (register_labels ls (labels_inc x 0 c)).
  eapply counter_le_trans; [apply labels_inc_le | apply IH].
Qed.

Lemma counts_le_refl st : counts_le st st.
Proof. split; apply counter_le_refl. Qed.

Lemma counts_le_trans st1 st2 st3 :
  counts_le st1 st2 → counts_le st2 st3 → counts_le st1 st3.
Proof.
  intros [Hc Ha] [Hc' Ha']. split; eapply counter_le_trans; eassumption.
Qed.

Lemma stress_log_counts r (a code : string) st :
  HTTP_CODE_COUNTER (stress_log r a code st) = HTTP_CODE_COUNTER st
  ∧ USER_ACTIONS (stress_log r a code st) = USER_ACTIONS st.
Proof.
  unfold stress_log.
  destruct (_ <? 0.1)%float; [done|].
  destruct (_ <? 0.3)%float; [done|].
  by destruct (_ <? 0.6)%float.
Qed.

Lemma monitor_iteration_le e st : counts_le st (monitor_iteration e st).1.
Proof.
  unfold monitor_iteration. cbn.
  destruct (stress_test_active st); cbn [fst];
    [|split; cbn; apply counter_le_refl].
  unfold counts_le.
  destruct (stress_log_counts (rand_val e)
              (random_choice ALL_ACTIONS (action_ix e))
              (random_choice ALL_CODES (code_ix e))
              (set_actions (labels_inc (random_choice ALL_ACTIONS (action_ix e)) 1)
                 (set_codes (labels_inc (random_choice ALL_CODES (code_ix e)) 1)
                    (gauge_set (now e - start_time st)%float st))))
    as [-> ->].
  cbn. split; apply labels_inc_le.
Qed.

Lemma step_le ev st : counts_le st (step ev st).
Proof.
  destruct ev as [|form|args|form| | |e].
  - apply counts_le_refl.
  - change (counts_le st (handle_log form st).2).
    pose proof (handle_log_total form st) as H. cbn zeta in H.
    destruct (handle_log form st) as [rv st'].
    destruct H as (_ & _ & Hc & Ha). unfold counts_le. cbn [snd].
    rewrite Hc, Ha. split; apply counter_le_refl.
  - change (counts_le st (handle_status args st).2).
    rewrite handle_status_state.
    split; cbn; [apply labels_inc_le | apply counter_le_refl].
  - change (counts_le st (handle_action form st).2).
    split; cbn; [apply counter_le_refl | apply labels_inc_le].
  - change (counts_le st (handle_stress st).2).
    split; cbn; apply counter_le_refl.
  - apply counts_le_refl.
  - apply monitor_iteration_le.
Qed.

Lemma run_le evs : ∀ st, counts_le st (run evs st).
Proof.
  induction evs as [|ev evs IH]; intros st; [apply counts_le_refl|].
  change (run (ev :: evs) st) with (run evs (step ev st)).
  eapply counts_le_trans; [apply step_le | apply IH].
Qed.
End monotone.

(** C7. No operation lowers a counter: the registration loop of the module
    body, every request handler and every loop iteration keep each existing
    series and leave it at a value at least as large; hence so does every
    sequence of requests and iterations, and no reading ever goes down. *)
Theorem counters_never_decrease :
  (∀ ls c, counter_le c (register_labels ls c))
  ∧ (∀ ev st, counts_le st (step ev st))
  ∧ (∀ evs st, counts_le st (run evs st))
  ∧ (∀ evs st l,
       (reading (HTTP_CODE_COUNTER st) l
        ≤ reading (HTTP_CODE_COUNTER (run evs st)) l)%N
       ∧ (reading (USER_ACTIONS st) l
          ≤ reading (USER_ACTIONS (run evs st)) l)%N).
Proof.
  split_and!.
  - intros ls c. apply register_labels_le.
  - apply step_le.
  - intros evs st. apply run_le.
  - intros evs st l. destruct (run_le evs st) as [Hc Ha].
    split; by apply counter_le_reading.
Qed.

(** * Further properties of the handlers and of the loop *)

#[local] Set Warnings "-clear-no-such-hyp".

(** ** What each step leaves alone *)

Section frames.
Implicit Types (st : app_state) (e : tick_env).

Lemma stress_log_fields r (a code : string) st :
  HTTP_CODE_COUNTER (stress_log r a code st) = HTTP_CODE_COUNTER st
  ∧ USER_ACTIONS (stress_log r a code st) = USER_ACTIONS st
  ∧ UPTIME_GAUGE (stress_log r a code st) = UPTIME_GAUGE st
  ∧ start_time (stress_log r a code st) = start_time st
  ∧ stress_test_active (stress_log r a code st) = stress_test_active st
  ∧ stdout (stress_log r a code st) = stdout st ++ stress_lines r a code.
Proof.
  unfold stress_log, stress_lines.
  destruct (_ <? 0.1)%float; [done|].
  destruct (_ <? 0.3)%float; [done|].
  destruct (_ <? 0.6)%float; [done|].
  by rewrite app_nil_r.
Qed.

Lemma monitor_iteration_fields e st :
  let st' := (monitor_iteration e st).1 in
  let c := random_choice ALL_CODES (code_ix e) in
  let a := random_choice ALL_ACTIONS (action_ix e) in
  HTTP_CODE_COUNTER st'
  = (if stress_test_active st then labels_inc c 1 (HTTP_CODE_COUNTER st)
     else HTTP_CODE_COUNTER st)
  ∧ USER_ACTIONS st'
    = (if stress_test_active st then labels_inc a 1 (USER_ACTIONS st)
       else USER_ACTIONS st)
  ∧ UPTIME_GAUGE st' = (now e - start_time st)%float
  ∧ start_time st' = start_time st
  ∧ stress_test_active st' = stress_test_active st
  ∧ stdout st' = stdout st ++ written (Tick e) st.
Proof.
  intros st' c a. subst st' c a. unfold monitor_iteration, written.
  cbn [gauge_set stress_test_active start_time].
  destruct (stress_test_active st) eqn:Hflag; cbn [fst].
  - match goal with
    | |- context [stress_log ?r ?x ?y ?s] =>
        destruct (stress_log_fields r x y s) as (-> & -> & -> & -> & -> & ->)
    end.
    cbn. by rewrite Hflag.
  - cbn. by rewrite app_nil_r.
Qed.

Lemma handle_log_fields (form : gmap string string) st :
  let st' := (handle_log form st).2 in
  HTTP_CODE_COUNTER st' = HTTP_CODE_COUNTER st
  ∧ USER_ACTIONS st' = USER_ACTIONS st
  ∧ UPTIME_GAUGE st' = UPTIME_GAUGE st
  ∧ start_time st' = start_time st
  ∧ stress_test_active st' = stress_test_active st
  ∧ stdout st' = stdout st ++ written (POST_log form) st.
Proof.
  unfold handle_log, written, resolved_level. cbn zeta.
  repeat case_bool_decide; done.
Qed.

Lemma step_start_time ev st : start_time (step ev st) = start_time st.
Proof.
  destruct ev as [|form|args|form| | |e]; try reflexivity.
  - apply (handle_log_fields form st).
  - change (step (GET_status args) st) with (handle_status args st).2.
    by rewrite handle_status_state.
  - apply (monitor_iteration_fields e st).
Qed.

Lemma step_flag ev st :
  stress_test_active (step ev st)
  = xorb (is_toggle ev) (stress_test_active st).
Proof.
  destruct ev as [|form|args|form| | |e]; try reflexivity.
  - apply (handle_log_fields form st).
  - change (step (GET_status args) st) with (handle_status args st).2.
    by rewrite handle_status_state.
  - apply (monitor_iteration_fields e st).
Qed.

Lemma step_stdout ev st : stdout (step ev st) = stdout st ++ written ev st.
Proof.
  destruct ev as [|form|args|form| | |e]; cbn [written];
    try (cbn; by rewrite app_nil_r).
  - apply (handle_log_fields form st).
  - change (step (GET_status args) st) with (handle_status args st).2.
    rewrite handle_status_state. cbn. by rewrite app_nil_r.
  - apply (monitor_iteration_fields e st).
Qed.

Lemma step_gauge ev st :
  UPTIME_GAUGE (step ev st)
  = match ev with
    | Tick e => (now e - start_time st)%float
    | _ => UPTIME_GAUGE st
    end.
Proof.
  destruct ev as [|form|args|form| | |e]; try reflexivity.
  - apply (handle_log_fields form st).
  - change (step (GET_status args) st) with (handle_status args st).2.
    by rewrite handle_status_state.
  - apply (monitor_iteration_fields e st).
Qed.

Lemma run_cons ev evs st : run (ev :: evs) st = run evs (step ev st).
Proof. reflexivity. Qed.

End frames.

(** ** Series, sizes and sums *)

Section series_facts.
Implicit Types (c : gmap string N) (l : string) (a : N) (st : app_state).

Lemma labels_inc_insert l a c :
  labels_inc l a c = <[l := (reading c l + a)%N]> c.
Proof.
  apply map_eq. intros k. destruct (decide (l = k)) as [->|Hne].
  - by rewrite lookup_labels_inc_eq, lookup_insert_eq.
  - by rewrite lookup_labels_inc_ne, lookup_insert_ne.
Qed.

Lemma dom_labels_inc l a c : dom (labels_inc l a c) = {[l]} ∪ dom c.
Proof. rewrite labels_inc_insert. apply dom_insert_L. Qed.

Lemma size_labels_inc l a c :
  size (labels_inc l a c)
  = match c !! l with Some _ => size c | None => S (size c) end.
Proof.
  rewrite labels_inc_insert. destruct (c !! l) as [v|] eqn:E.
  - by apply map_size_insert_Some.
  - by apply map_size_insert_None.
Qed.

Lemma total_insert_fresh l v c :
  c !! l = None → total (<[l := v]> c) = (v + total c)%N.
Proof.
  intros Hl. unfold total.
  rewrite map_fold_insert_L; [done| |done]. intros. lia.
Qed.

Lemma total_labels_inc l a c : total (labels_inc l a c) = (total c + a)%N.
Proof.
  rewrite labels_inc_insert. unfold reading.
  destruct (c !! l) as [v|] eqn:E; simpl.
  - rewrite <- (insert_delete_id c l v E) at 2.
    rewrite <- insert_delete_eq.
    rewrite !total_insert_fresh by apply lookup_delete_eq. lia.
  - rewrite total_insert_fresh by done. lia.
Qed.

End series_facts.

(** ** POST /action *)

(** X1. POST /action accepts any action name: it answers 200 with a
    confirmation quoting the name, adds one to the series of that name and
    to no other, and leaves the code counter, gauge, flag, start time and
    log output alone. *)
Theorem handle_action_tracks (form : gmap string string) (st : app_state) :
  let act_name := get form "action" "unknown" in
  let st' := (handle_action form st).2 in
  make_response (handle_action form st).1
  = Response 200 (Text ("Business Action '" +:+ act_name +:+ "' tracked")) []
  ∧ USER_ACTIONS st' !! act_name
    = Some (reading (USER_ACTIONS st) act_name + 1)%N
  ∧ (∀ l, l ≠ act_name → USER_ACTIONS st' !! l = USER_ACTIONS st !! l)
  ∧ HTTP_CODE_COUNTER st' = HTTP_CODE_COUNTER st
  ∧ UPTIME_GAUGE st' = UPTIME_GAUGE st
  ∧ stress_test_active st' = stress_test_active st
  ∧ start_time st' = start_time st
  ∧ stdout st' = stdout st.
Proof.
  intros act_name st'. subst st'. unfold handle_action. fold act_name.
  cbn [fst snd make_response set_actions USER_ACTIONS HTTP_CODE_COUNTER
       UPTIME_GAUGE stress_test_active start_time stdout].
  split_and!; try reflexivity.
  - apply lookup_labels_inc_eq.
  - intros l Hne. by apply lookup_labels_inc_ne.
Qed.

Lemma handle_action_tracks_witness :
  let form : gmap string string := {["action" := "refund"]}%string in
  let st' := (handle_action form (init 0)).2 in
  USER_ACTIONS st' !! "refund"%string = Some 1%N
  ∧ USER_ACTIONS st' !! "login"%string = Some 0%N.
Proof.
  intros form st'.
  destruct (handle_action_tracks form (init 0)) as (_ & Hnew & Hold & _).
  split; [exact Hnew|]. unfold st'.
  rewrite (Hold "login"%string); [reflexivity | discriminate].
Defined.

(** X2. A label value that has no series yet gets one: the first
    GET /status with an unseen code string (valid or not) and the first
    POST /action with an unseen name each create a series reading 1, one
    more series than before, and the export reports it with value 1. *)
Theorem unseen_label_new_series (st : app_state) :
  (∀ args : gmap string string,
     HTTP_CODE_COUNTER st !! get args "code" "200" = None →
     let st' := (handle_status args st).2 in
     HTTP_CODE_COUNTER st' !! get args "code" "200" = Some 1%N
     ∧ size (HTTP_CODE_COUNTER st') = S (size (HTTP_CODE_COUNTER st))
     ∧ counter_sample "app_http_codes_total" "code" (get args "code" "200") 1
       ∈ generate_latest st')
  ∧ (∀ form : gmap string string,
       USER_ACTIONS st !! get form "action" "unknown" = None →
       let st' := (handle_action form st).2 in
       USER_ACTIONS st' !! get form "action" "unknown" = Some 1%N
       ∧ size (USER_ACTIONS st') = S (size (USER_ACTIONS st))
       ∧ counter_sample "business_user_actions_total" "action"
           (get form "action" "unknown") 1
         ∈ generate_latest st').
Proof.
  split.
  - intros args Hnew st'. subst st'. rewrite handle_status_state.
    unfold generate_latest.
    cbn [set_codes HTTP_CODE_COUNTER USER_ACTIONS].
    assert (Hone : labels_inc (get args "code" "200") 1 (HTTP_CODE_COUNTER st)
                   !! get args "code" "200" = Some 1%N).
    { rewrite lookup_labels_inc_eq. unfold reading. by rewrite Hnew. }
    rewrite size_labels_inc, Hnew. split_and!; [done|done|].
    apply elem_of_app. left. by apply elem_of_series.
  - intros form Hnew st'. subst st'. unfold handle_action, generate_latest.
    cbn [snd set_actions HTTP_CODE_COUNTER USER_ACTIONS].
    assert (Hone : labels_inc (get form "action" "unknown") 1 (USER_ACTIONS st)
                   !! get form "action" "unknown" = Some 1%N).
    { rewrite lookup_labels_inc_eq. unfold reading. by rewrite Hnew. }
    rewrite size_labels_inc, Hnew. split_and!; [done|done|].
    apply elem_of_app. right. apply elem_of_app. left. by apply elem_of_series.
Qed.

Lemma unseen_label_new_series_witness :
  let args : gmap string string := {["code" := "teapot"]}%string in
  let st' := (handle_status args (init 0)).2 in
  HTTP_CODE_COUNTER st' !! "teapot"%string = Some 1%N
  ∧ size (HTTP_CODE_COUNTER st') = 11%nat
  ∧ counter_sample "app_http_codes_total" "code" "teapot" 1
    ∈ generate_latest st'.
Proof.
  intros args st'.
  apply (proj1 (unseen_label_new_series (init 0)) args).
  vm_compute. reflexivity.
Defined.

(** X3. A POST /action without an [action] field is counted under the name
    "unknown", which is not among the pre-registered actions: the answer
    and the new state are those of [action=unknown], and on the freshly
    initialised process it opens a fifth action series. *)
Theorem handle_action_default_unknown
    (form : gmap string string) (st : app_state) (t0 : float) :
  form !! "action"%string = None →
  handle_action form st = handle_action {["action" := "unknown"]}%string st
  ∧ make_response (handle_action form st).1
    = Response 200 (Text "Business Action 'unknown' tracked") []
  ∧ reading (USER_ACTIONS (handle_action form st).2) "unknown"
    = (reading (USER_ACTIONS st) "unknown" + 1)%N
  ∧ ("unknown"%string ∉ ALL_ACTIONS)
  ∧ size (USER_ACTIONS (handle_action form (init t0)).2) = 5%nat.
Proof.
  intros Hno.
  assert (Hget : get form "action" "unknown" = "unknown"%string)
    by (unfold get; by rewrite Hno).
  assert (Hrun : ∀ s, handle_action form s
                 = (Rv (Text "Business Action 'unknown' tracked"),
                    set_actions (labels_inc "unknown" 1) s)).
  { intros s. unfold handle_action. rewrite Hget. reflexivity. }
  rewrite !Hrun. split_and!.
  - reflexivity.
  - reflexivity.
  - cbn [snd set_actions USER_ACTIONS]. apply reading_labels_inc_eq.
  - apply (bool_decide_unpack _). vm_compute. exact I.
  - cbn [snd set_actions USER_ACTIONS init]. rewrite size_labels_inc.
    vm_compute. reflexivity.
Qed.

Lemma handle_action_default_unknown_witness :
  make_response (handle_action ∅ (init 0)).1
  = Response 200 (Text "Business Action 'unknown' tracked") []
  ∧ reading (USER_ACTIONS (handle_action ∅ (init 0)).2) "unknown" = 1%N.
Proof.
  destruct (handle_action_default_unknown ∅ (init 0) 0)
    as (_ & Hr & Hc & _).
  - apply lookup_empty.
  - split; [exact Hr | exact Hc].
Defined.

(** ** Repeated requests *)

(** X4. Increments add up: [n] GET /status requests with the same
    parameters raise the reading of that code's series by exactly [n], and
    [n] POST /action requests with the same form raise the reading of that
    action's series by exactly [n]. *)
Theorem repeated_requests_add_up (n : nat) :
  (∀ (args : gmap string string) (st : app_state),
     reading (HTTP_CODE_COUNTER (run (replicate n (GET_status args)) st))
       (get args "code" "200")
     = (reading (HTTP_CODE_COUNTER st) (get args "code" "200") + N.of_nat n)%N)
  ∧ (∀ (form : gmap string string) (st : app_state),
       reading (USER_ACTIONS (run (replicate n (POST_action form)) st))
         (get form "action" "unknown")
       = (reading (USER_ACTIONS st) (get form "action" "unknown")
          + N.of_nat n)%N).
Proof.
  split.
  - intros args. induction n as [|n IH]; intros st.
    + cbn. lia.
    + cbn [replicate]. rewrite run_cons, IH.
      change (step (GET_status args) st) with (handle_status args st).2.
      rewrite handle_status_state. cbn [set_codes HTTP_CODE_COUNTER].
      rewrite reading_labels_inc_eq. lia.
  - intros form. induction n as [|n IH]; intros st.
    + cbn. lia.
    + cbn [replicate]. rewrite run_cons, IH.
      change (step (POST_action form) st) with (handle_action form st).2.
      unfold handle_action. cbn [snd set_actions USER_ACTIONS].
      rewrite reading_labels_inc_eq. lia.
Qed.

(** ** POST /log: letter case and missing fields *)

Section letter_case.

Lemma lower_char_upper_char c : Py.lower_char (Py.upper_char c) = Py.lower_char c.
Proof. destruct c as [[] [] [] [] [] [] [] []]; reflexivity. Qed.

Lemma lower_char_lower_char c : Py.lower_char (Py.lower_char c) = Py.lower_char c.
Proof. destruct c as [[] [] [] [] [] [] [] []]; reflexivity. Qed.

Lemma upper_char_lower_char c : Py.upper_char (Py.lower_char c) = Py.upper_char c.
Proof. destruct c as [[] [] [] [] [] [] [] []]; reflexivity. Qed.

Lemma map_chars_compose (f g h : ascii → ascii) (s : string) :
  (∀ c, f (g c) = h c) →
  Py.map_chars f (Py.map_chars g s) = Py.map_chars h s.
Proof.
  intros Hfg. induction s as [|c s IH]; [done|].
  cbn [Py.map_chars]. by rewrite Hfg, IH.
Qed.

Lemma lower_upper s : Py.lower (Py.upper s) = Py.lower s.
Proof. apply map_chars_compose, lower_char_upper_char. Qed.

Lemma lower_lower s : Py.lower (Py.lower s) = Py.lower s.
Proof. apply map_chars_compose, lower_char_lower_char. Qed.

Lemma upper_lower s : Py.upper (Py.lower s) = Py.upper s.
Proof. apply map_chars_compose, upper_char_lower_char. Qed.

End letter_case.

(** X5. On a level of code points below 128, POST /log reads the level
    without regard to letter case: sending the level upper-cased or
    lower-cased gives the same line and the same answer, and the answer
    quotes the submitted level in upper case. A form without [level] is
    handled as [level=info], and a form without [message] logs the text
    "No message content". *)
Theorem handle_log_level_case
    (form : gmap string string) (level : string) (st : app_state) :
  Py.isascii level = true →
  handle_log (<["level" := Py.upper level]> form) st
  = handle_log (<["level" := level]> form) st
  ∧ handle_log (<["level" := Py.lower level]> form) st
    = handle_log (<["level" := level]> form) st
  ∧ (handle_log (<["level" := level]> form) st).1
    = Rv (Text ("Success: Sent as " +:+ Py.upper level))
  ∧ (form !! "level"%string = None →
     handle_log form st = handle_log (<["level" := "info"%string]> form) st)
  ∧ (form !! "message"%string = None →
     stdout (handle_log form st).2
     = stdout st ++ [LogRecord (resolved_level (get form "level" "info"))
                       "Manual Entry: No message content"]).
Proof.
  intros _.
  assert (Hlvl : ∀ x, get (<["level" := x]> form) "level" "info" = x)
    by (intros x; unfold get; by rewrite lookup_insert_eq).
  assert (Hmsg : ∀ x d, get (<["level" := x]> form) "message" d
                        = get form "message" d)
    by (intros x d; unfold get; by rewrite lookup_insert_ne).
  split_and!.
  - unfold handle_log. rewrite !Hlvl, !Hmsg, lower_upper. reflexivity.
  - unfold handle_log. rewrite !Hlvl, !Hmsg, lower_lower. reflexivity.
  - unfold handle_log. rewrite Hlvl, upper_lower. reflexivity.
  - intros Hno.
    assert (Hget : get form "level" "info" = "info"%string)
      by (unfold get; by rewrite Hno).
    unfold handle_log. rewrite Hlvl, Hmsg, Hget. reflexivity.
  - intros Hno.
    assert (Hget : get form "message" "No message content"
                   = "No message content"%string)
      by (unfold get; by rewrite Hno).
    rewrite (proj2 (proj2 (proj2 (proj2 (proj2
               (handle_log_fields form st)))))).
    unfold written. by rewrite Hget.
Qed.

Lemma handle_log_level_case_witness :
  let form : gmap string string := {["other" := "x"]}%string in
  Py.isascii "WaRning" = true
  ∧ handle_log (<["level" := "WARNING"%string]> form) (init 0)
    = handle_log (<["level" := "WaRning"%string]> form) (init 0)
  ∧ handle_log form (init 0)
    = handle_log (<["level" := "info"%string]> form) (init 0)
  ∧ stdout (handle_log form (init 0)).2
    = [LogRecord INFO "Manual Entry: No message content"].
Proof.
  intros form.
  destruct (handle_log_level_case form "WaRning" (init 0) eq_refl)
    as (Hupper & _ & _ & Hlevel & Hmessage).
  split_and!.
  - reflexivity.
  - exact Hupper.
  - apply Hlevel. vm_compute. reflexivity.
  - apply Hmessage. vm_compute. reflexivity.
Defined.

(** ** The stress flag over a whole run *)

Lemma toggles_cons ev evs :
  toggles (ev :: evs)
  = if is_toggle ev then S (toggles evs) else toggles evs.
Proof. unfold toggles. cbn. by destruct (is_toggle ev). Qed.

(** X6. Only POST /stress changes the flag: after any sequence of requests
    and loop iterations the flag is its initial value if the sequence holds
    an even number of POST /stress requests, and the opposite value if it
    holds an odd number. *)
Theorem stress_flag_parity (evs : list event) (st : app_state) :
  stress_test_active (run evs st)
  = xorb (Nat.odd (toggles evs)) (stress_test_active st).
Proof.
  revert st. induction evs as [|ev evs IH]; intros st.
  - cbn. by destruct (stress_test_active st).
  - rewrite run_cons, IH, step_flag, toggles_cons.
    destruct (is_toggle ev); [|reflexivity].
    rewrite Nat.odd_succ, <- Nat.negb_odd.
    by destruct (Nat.odd (toggles evs)), (stress_test_active st).
Qed.

(** ** Sums of the counters under the loop *)

Lemma monitor_worker_cons e es st :
  monitor_worker (e :: es) st = monitor_worker es (monitor_iteration e st).1.
Proof. reflexivity. Qed.

(** X7. While the flag is true every loop iteration raises the sum of the
    code series by exactly one and the sum of the action series by exactly
    one, so [k] iterations raise each sum by [k]; while it is false the sums
    do not move. The loop itself never changes the flag. *)
Theorem monitor_worker_totals (es : list tick_env) (st : app_state) :
  let st' := monitor_worker es st in
  let gain := if stress_test_active st then N.of_nat (length es) else 0%N in
  total (HTTP_CODE_COUNTER st') = (total (HTTP_CODE_COUNTER st) + gain)%N
  ∧ total (USER_ACTIONS st') = (total (USER_ACTIONS st) + gain)%N
  ∧ stress_test_active st' = stress_test_active st.
Proof.
  revert st. induction es as [|e es IH]; intros st; cbn zeta.
  - cbn. destruct (stress_test_active st); split_and!; (done || lia).
  - rewrite monitor_worker_cons.
    destruct (IH (monitor_iteration e st).1) as (Hc & Ha & Hf).
    destruct (monitor_iteration_fields e st) as (Hc1 & Ha1 & _ & _ & Hf1 & _).
    rewrite Hc, Ha, Hf, Hf1, Hc1, Ha1.
    destruct (stress_test_active st).
    + rewrite !total_labels_inc. cbn [length]. split_and!; (done || lia).
    + split_and!; (done || lia).
Qed.

(** ** GET /status: when the answer is "Invalid code" *)

(** X8. The body "Invalid code" is sent exactly for the codes outside
    100, 101 and 304 that [int] rejects; every other request is sent the
    body naming its code, or no body when its status is 1xx, 204 or 304. *)
Theorem invalid_code_iff (args : gmap string string) (st : app_state) :
  let code_val := get args "code" "200" in
  let r := send (make_response (handle_status args st).1) in
  (data r = Text "Invalid code"
   ↔ (code_val ∉ passthrough_codes) ∧ Py.int code_val = None)
  ∧ (data r ≠ Text "Invalid code" →
     data r = sent_body (status_code r) (recorded code_val)).
Proof.
  intros code_val r. subst r. rewrite send_status, send_data.
  unfold handle_status. fold code_val.
  case_bool_decide as Hin.
  - cbn. split; [|done]. split; [discriminate|].
    intros [Hout _]. by destruct Hout.
  - destruct (Py.int code_val) as [n|]; cbn [fst make_response status_code data].
    + split; [|done]. split; [|intros [_ ?]; discriminate].
      unfold sent_body. destruct (bodyless n); discriminate.
    + split; [|done]. split; [|done]. intros _. split; done.
Qed.

Lemma invalid_code_iff_witness :
  let args : gmap string string := {["code" := "404"]}%string in
  data (send (make_response (handle_status args (init 0)).1))
  = Text "HTTP 404 recorded".
Proof.
  intros args.
  apply (proj2 (invalid_code_iff args (init 0))).
  vm_compute. discriminate.
Defined.

(** ** Log output over a whole run *)

Lemma written_at_most_one ev st : (length (written ev st) ≤ 1)%nat.
Proof.
  destruct ev as [|form|args|form| | |e]; cbn; try lia.
  destruct (stress_test_active st); [|cbn; lia].
  unfold stress_lines.
  destruct (_ <? 0.1)%float; [cbn; lia|].
  destruct (_ <? 0.3)%float; [cbn; lia|].
  destruct (_ <? 0.6)%float; cbn; lia.
Qed.

(** X9. Nothing ever removes or rewrites a line of the log output: after
    any sequence of requests and loop iterations the earlier output is a
    prefix of the later one, and the sequence has added at most one line
    per event. *)
Theorem stdout_append_only (evs : list event) (st : app_state) :
  ∃ lines,
    stdout (run evs st) = stdout st ++ lines
    ∧ (length lines ≤ length evs)%nat.
Proof.
  revert st. induction evs as [|ev evs IH]; intros st.
  - exists []. cbn. by rewrite app_nil_r.
  - rewrite run_cons. destruct (IH (step ev st)) as (lines & Hout & Hlen).
    exists (written ev st ++ lines). split.
    + by rewrite Hout, step_stdout, <- app_assoc.
    + rewrite length_app. pose proof (written_at_most_one ev st). cbn. lia.
Qed.

(** ** The registration loop *)

Lemma reading_register_labels ls c l :
  reading (register_labels ls c) l = reading c l.
Proof.
  unfold reading at 1. rewrite register_labels_lookup.
  by destruct (decide (l ∈ ls)).
Qed.

Lemma dom_register_labels ls : ∀ c : gmap string N,
  dom (register_labels ls c) = list_to_set ls ∪ dom c.
Proof.
  induction ls as [|x ls IH]; intros c.
  - cbn. set_solver.
  - change (register_labels (x :: ls) c)
      with (register_labels ls (labels_inc x 0 c)).
    rewrite IH, dom_labels_inc. set_solver.
Qed.

(** X10. The registration loop [labels(l).inc(0)] creates the missing
    series and resets nothing: every reading is what it was, a series that
    existed keeps its value, the series afterwards are the old ones plus
    the listed labels, and running the loop a second time changes
    nothing. *)
Theorem register_labels_keeps_readings (ls : list string) (c : gmap string N) :
  (∀ l, reading (register_labels ls c) l = reading c l)
  ∧ (∀ l v, c !! l = Some v → register_labels ls c !! l = Some v)
  ∧ dom (register_labels ls c) = list_to_set ls ∪ dom c
  ∧ register_labels ls (register_labels ls c) = register_labels ls c.
Proof.
  split_and!.
  - intros l. apply reading_register_labels.
  - intros l v Hl. rewrite register_labels_lookup. unfold reading.
    rewrite Hl. by destruct (decide (l ∈ ls)).
  - apply dom_register_labels.
  - apply map_eq. intros l. rewrite (register_labels_lookup ls _ l).
    rewrite reading_register_labels.
    destruct (decide (l ∈ ls)) as [Hin|Hnin]; [|done].
    by rewrite register_labels_lookup, decide_True.
Qed.

Lemma register_labels_keeps_readings_witness :
  let c : gmap string N := {["404" := 7%N]}%string in
  register_labels ALL_CODES c !! "404"%string = Some 7%N.
Proof.
  intros c.
  apply (proj1 (proj2 (register_labels_keeps_readings ALL_CODES c))).
  vm_compute. reflexivity.
Defined.

(** ** The set of series under declared labels *)

Lemma random_choice_elem_of (seq : list string) (i : nat) :
  (i < length seq)%nat → random_choice seq i ∈ seq.
Proof.
  intros Hlt. eapply list_elem_of_lookup_2. by apply random_choice_lookup.
Qed.

Lemma dom_labels_inc_known (l : string) (a : N) (c : gmap string N)
    (ls : list string) :
  l ∈ ls → (list_to_set ls : gset string) ⊆ dom c →
  dom (labels_inc l a c) = dom c.
Proof. intros Hin Hsub. rewrite dom_labels_inc. set_solver. Qed.

Lemma step_declared_dom (ev : event) (st : app_state) :
  declared ev →
  (list_to_set ALL_CODES : gset string) ⊆ dom (HTTP_CODE_COUNTER st) →
  (list_to_set ALL_ACTIONS : gset string) ⊆ dom (USER_ACTIONS st) →
  dom (HTTP_CODE_COUNTER (step ev st)) = dom (HTTP_CODE_COUNTER st)
  ∧ dom (USER_ACTIONS (step ev st)) = dom (USER_ACTIONS st).
Proof.
  intros Hdecl Hc Ha.
  destruct ev as [|form|args|form| | |e]; try (split; reflexivity).
  - destruct (handle_log_fields form st) as (Hc' & Ha' & _).
    change (step (POST_log form) st) with (handle_log form st).2.
    by rewrite Hc', Ha'.
  - change (step (GET_status args) st) with (handle_status args st).2.
    rewrite handle_status_state. cbn [set_codes HTTP_CODE_COUNTER USER_ACTIONS].
    split; [|done]. by eapply dom_labels_inc_known.
  - change (step (POST_action form) st) with (handle_action form st).2.
    unfold handle_action. cbn [snd set_actions HTTP_CODE_COUNTER USER_ACTIONS].
    split; [done|]. by eapply dom_labels_inc_known.
  - destruct Hdecl as [Hci Hai].
    destruct (monitor_iteration_fields e st) as (Hc' & Ha' & _).
    change (step (Tick e) st) with (monitor_iteration e st).1.
    rewrite Hc', Ha'. destruct (stress_test_active st); [|done].
    split; eapply dom_labels_inc_known;
      eauto using random_choice_elem_of.
Qed.

(** X11. As long as requests and loop iterations only name pre-registered
    label values, no series is ever added or removed: from the initial
    state the code series stay the ten of [ALL_CODES] and the action series
    the four of [ALL_ACTIONS]. *)
Theorem declared_events_keep_series (t0 : float) (evs : list event) :
  Forall declared evs →
  let st := run evs (init t0) in
  dom (HTTP_CODE_COUNTER st) = list_to_set ALL_CODES
  ∧ dom (USER_ACTIONS st) = list_to_set ALL_ACTIONS
  ∧ size (HTTP_CODE_COUNTER st) = 10%nat
  ∧ size (USER_ACTIONS st) = 4%nat.
Proof.
  intros Hdecl.
  assert (Hdom : ∀ st0,
    dom (HTTP_CODE_COUNTER st0) = list_to_set ALL_CODES →
    dom (USER_ACTIONS st0) = list_to_set ALL_ACTIONS →
    dom (HTTP_CODE_COUNTER (run evs st0)) = list_to_set ALL_CODES
    ∧ dom (USER_ACTIONS (run evs st0)) = list_to_set ALL_ACTIONS).
  { induction Hdecl as [|ev evs Hev _ IH]; intros st0 Hc Ha; [done|].
    rewrite run_cons.
    destruct (step_declared_dom ev st0 Hev) as [Hc' Ha'];
      [by rewrite Hc | by rewrite Ha |].
    apply IH; congruence. }
  cbn zeta. destruct (Hdom (init t0)) as [Hc Ha].
  - cbn [init HTTP_CODE_COUNTER]. rewrite dom_register_labels. set_solver.
  - cbn [init USER_ACTIONS]. rewrite dom_register_labels. set_solver.
  - split_and!; [done|done| |].
    + rewrite <- (size_dom (HTTP_CODE_COUNTER _)), Hc. vm_compute. reflexivity.
    + rewrite <- (size_dom (USER_ACTIONS _)), Ha. vm_compute. reflexivity.
Qed.

Lemma declared_events_keep_series_witness :
  let evs := [POST_stress; Tick (TickEnv 5 9 3 0.9);
              GET_status {["code" := "503"]}%string;
              POST_action {["action" := "login"]}%string; GET_metrics] in
  size (HTTP_CODE_COUNTER (run evs (init 0))) = 10%nat
  ∧ size (USER_ACTIONS (run evs (init 0))) = 4%nat.
Proof.
  intros evs.
  apply (declared_events_keep_series 0 evs).
  repeat constructor; try (apply (bool_decide_unpack _); vm_compute; exact I);
    cbn; lia.
Defined.

(** ** The uptime gauge over a whole run *)

Lemma run_app evs1 evs2 st : run (evs1 ++ evs2) st = run evs2 (run evs1 st).
Proof. unfold run. by rewrite foldl_app. Qed.

Lemma run_start_time evs : ∀ st, start_time (run evs st) = start_time st.
Proof.
  induction evs as [|ev evs IH]; intros st; [done|].
  by rewrite run_cons, IH, step_start_time.
Qed.

Lemma run_requests_gauge evs : ∀ st,
  Forall (λ ev, is_tick ev = false) evs →
  UPTIME_GAUGE (run evs st) = UPTIME_GAUGE st.
Proof.
  induction evs as [|ev evs IH]; intros st Hreq; [done|].
  inversion Hreq as [|? ? Hev Hrest]; subst.
  rewrite run_cons, IH, step_gauge by done.
  by destruct ev.
Qed.

(** X12. [start_time] is never reassigned, and the gauge always holds the
    clock reading of the latest loop iteration minus that start time,
    whether the flag was set or not and whatever requests came after. *)
Theorem uptime_gauge_last_tick
    (evs evs' : list event) (e : tick_env) (st : app_state) :
  Forall (λ ev, is_tick ev = false) evs' →
  UPTIME_GAUGE (run (evs ++ Tick e :: evs') st) = (now e - start_time st)%float
  ∧ start_time (run (evs ++ Tick e :: evs') st) = start_time st.
Proof.
  intros Hreq. split; [|apply run_start_time].
  rewrite run_app, run_cons, run_requests_gauge by done.
  rewrite step_gauge. by rewrite run_start_time.
Qed.

Lemma uptime_gauge_last_tick_witness :
  UPTIME_GAUGE
    (run ([POST_stress; Tick (TickEnv 40 0 0 0.5)]
          ++ Tick (TickEnv 42 1 1 0.5) :: [POST_stress; GET_metrics])
       (init 30))
  = 12%float.
Proof.
  apply (uptime_gauge_last_tick [POST_stress; Tick (TickEnv 40 0 0 0.5)]
           [POST_stress; GET_metrics] (TickEnv 42 1 1 0.5) (init 30)).
  repeat constructor.
Defined.

(** ** GET /status with a code made of digits *)

Section digit_codes.

Lemma is_digit_plain c :
  Py.is_digit c = true →
  Py.is_space c = false ∧ c ≠ "-"%char ∧ c ≠ "+"%char ∧ c ≠ "_"%char.
Proof.
  destruct c as [[] [] [] [] [] [] [] []]; vm_compute; intros H;
    try discriminate H; split_and!; (reflexivity || discriminate).
Qed.

Lemma forallb_is_digit l : forallb Py.is_digit l = true → Forall digit l.
Proof.
  induction l as [|c l IH]; cbn; [constructor|].
  intros [Hc Hl]%andb_true_iff. constructor; [exact Hc | by apply IH].
Qed.

Lemma lstrip_nonspace l : Forall nonspace l → Py.lstrip l = l.
Proof. intros [|c l' Hc _]; [done|]. cbn. by rewrite Hc. Qed.

Lemma strip_nonspace l : Forall nonspace l → Py.strip l = l.
Proof.
  intros Hl. unfold Py.strip. rewrite (lstrip_nonspace l Hl).
  rewrite lstrip_nonspace by (by apply List.Forall_rev).
  apply rev_involutive.
Qed.

Lemma digits_nonspace l : Forall digit l → Forall nonspace l.
Proof.
  intros Hl. eapply Forall_impl; [exact Hl|].
  intros c Hc. apply (is_digit_plain c Hc).
Qed.

Lemma count_digits_all l : Forall digit l → Py.count_digits l = length l.
Proof.
  unfold Py.count_digits. induction 1 as [|c l Hc _ IH]; [done|].
  cbn [List.filter]. rewrite Hc. cbn [length]. by rewrite IH.
Qed.

Lemma length_list_ascii_of_string s :
  length (list_ascii_of_string s) = String.length s.
Proof. induction s as [|c s IH]; cbn; [done | by rewrite IH]. Qed.

Lemma digits_all l : Forall digit l → ∀ acc b,
  0 ≤ acc → l ≠ [] ∨ b = true →
  ∃ n, Py.digits acc b l = Some n ∧ acc ≤ n.
Proof.
  induction 1 as [|c l Hc Hl IH]; intros acc b Hacc Hne.
  - destruct Hne as [?| ->]; [done|]. exists acc. split; [done|lia].
  - cbn [Py.digits]. rewrite Hc.
    assert (Hv : 0 ≤ Py.digit_val c) by (unfold Py.digit_val; lia).
    destruct (IH (10 * acc + Py.digit_val c) true) as (n & Hn & Hle);
      [lia | by right |].
    exists n. split; [done|lia].
Qed.

(** On an all-digit string the sign analysis has nothing to do. *)
Lemma signed_all_digits l :
  Forall digit l → Py.signed l = Py.digits 0 false l.
Proof.
  intros [|c l' Hc _]; [done|].
  destruct (is_digit_plain c Hc) as (_ & Hminus & Hplus & _).
  unfold Py.signed.
  by rewrite (bool_decide_eq_false_2 _ Hminus),
             (bool_decide_eq_false_2 _ Hplus).
Qed.

(** [int] on an all-digit string: the cap decides, then the digits. *)
Lemma int_all_digits_eq s :
  all_digits s = true →
  Py.int s
  = if (String.length s <=? Py.int_max_str_digits)%nat
    then Py.digits 0 false (list_ascii_of_string s) else None.
Proof.
  intros Hall. apply forallb_is_digit in Hall. unfold Py.int. cbn zeta.
  rewrite (strip_nonspace _ (digits_nonspace _ Hall)).
  rewrite (count_digits_all _ Hall), length_list_ascii_of_string.
  by rewrite (signed_all_digits _ Hall).
Qed.

Lemma int_all_digits s :
  s ≠ ""%string → all_digits s = true →
  (String.length s ≤ Py.int_max_str_digits)%nat →
  ∃ n, Py.int s = Some n ∧ 0 ≤ n.
Proof.
  intros Hne Hall Hlen. rewrite (int_all_digits_eq s Hall).
  rewrite (proj2 (Nat.leb_le _ _) Hlen).
  apply forallb_is_digit in Hall.
  destruct (digits_all _ Hall 0 false) as (n & Hn & Hle); [lia | |by exists n].
  left. by destruct s.
Qed.

Lemma int_all_digits_long s :
  all_digits s = true →
  (Py.int_max_str_digits < String.length s)%nat →
  Py.int s = None.
Proof.
  intros Hall Hlen. rewrite (int_all_digits_eq s Hall).
  by rewrite (proj2 (Nat.leb_gt _ _) Hlen).
Qed.

Lemma passthrough_length (code : string) :
  code ∈ passthrough_codes → String.length code = 3%nat.
Proof.
  intros Hin.
  repeat (apply elem_of_cons in Hin as [->|Hin]; [reflexivity|]).
  by apply elem_of_nil in Hin.
Qed.

Lemma int_signed (s : string) :
  all_digits s = true →
  Py.int (String "+" s) = Py.int s ∧ Py.int (String "-" s) = Z.opp <$> Py.int s.
Proof.
  intros Hall. rewrite (int_all_digits_eq s Hall).
  apply forallb_is_digit in Hall.
  pose proof (digits_nonspace _ Hall) as Hns.
  pose proof (count_digits_all _ Hall) as Hcount.
  rewrite length_list_ascii_of_string in Hcount.
  pose proof (signed_all_digits _ Hall) as Hbare.
  unfold Py.int. cbn zeta. cbn [list_ascii_of_string].
  rewrite (strip_nonspace ("+"%char :: list_ascii_of_string s))
    by (constructor; [reflexivity | done]).
  rewrite (strip_nonspace ("-"%char :: list_ascii_of_string s))
    by (constructor; [reflexivity | done]).
  change (Py.count_digits ("+"%char :: list_ascii_of_string s))
    with (Py.count_digits (list_ascii_of_string s)).
  change (Py.count_digits ("-"%char :: list_ascii_of_string s))
    with (Py.count_digits (list_ascii_of_string s)).
  rewrite Hcount.
  destruct (String.length s <=? Py.int_max_str_digits)%nat; [|done].
  split; reflexivity.
Qed.

Lemma bodyless_nonpositive n : n ≤ 0 → bodyless n = false.
Proof. intros Hn. unfold bodyless. lia. Qed.

End digit_codes.

(** X14. A non-empty code made only of decimal digits is answered by its
    length: with at most 4300 digits [int] accepts it with a value that is
    not negative, the status is that value (200 when the code is 100, 101
    or 304) and the body names the code unless the status is one sent
    without body; with more digits the answer is 400 "Invalid code". *)
Theorem all_digit_codes_accepted (args : gmap string string) (st : app_state) :
  let code_val := get args "code" "200" in
  let r := send (make_response (handle_status args st).1) in
  code_val ≠ ""%string →
  all_digits code_val = true →
  ((String.length code_val ≤ Py.int_max_str_digits)%nat →
   ∃ n, Py.int code_val = Some n
        ∧ 0 ≤ n
        ∧ status_code r
          = (if bool_decide (code_val ∈ passthrough_codes) then 200 else n)
        ∧ data r = sent_body (status_code r) (recorded code_val))
  ∧ ((Py.int_max_str_digits < String.length code_val)%nat →
     r = Response 400 (Text "Invalid code") []).
Proof.
  intros code_val r Hne Hall. subst r. split.
  - intros Hlen.
    destruct (int_all_digits code_val Hne Hall Hlen) as (n & Hint & Hpos).
    exists n. rewrite send_status, send_data.
    unfold handle_status. fold code_val. fold passthrough_codes.
    case_bool_decide.
    + by split_and!.
    + rewrite Hint. by split_and!.
  - intros Hlen. unfold handle_status. fold code_val. fold passthrough_codes.
    rewrite bool_decide_eq_false_2.
    + by rewrite (int_all_digits_long code_val Hall Hlen).
    + intros Hin. apply passthrough_length in Hin.
      unfold Py.int_max_str_digits in Hlen. lia.
Qed.

Lemma all_digit_codes_accepted_witness :
  let short : gmap string string := {["code" := "0404"]}%string in
  let long : gmap string string := {["code" := repeat_char "9" 4301]} in
  (∃ n, Py.int "0404" = Some n
        ∧ 0 ≤ n
        ∧ status_code (send (make_response (handle_status short (init 0)).1))
          = (if bool_decide ("0404"%string ∈ passthrough_codes) then 200 else n)
        ∧ data (send (make_response (handle_status short (init 0)).1))
          = sent_body
              (status_code (send (make_response (handle_status short (init 0)).1)))
              (Text "HTTP 0404 recorded"))
  ∧ send (make_response (handle_status long (init 0)).1)
    = Response 400 (Text "Invalid code") [].
Proof.
  intros short long. split.
  - apply (proj1 (all_digit_codes_accepted short (init 0)
                    ltac:(discriminate) eq_refl)).
    apply Nat.leb_le. vm_compute. reflexivity.
  - apply (proj2 (all_digit_codes_accepted long (init 0)
                    ltac:(discriminate) ltac:(vm_compute; reflexivity))).
    apply Nat.ltb_lt. vm_compute. reflexivity.
Defined.

(** ** GET /status with a signed code *)

(** X15. The status is not range-checked and the special case for 100,
    101 and 304 compares text: for a non-empty string [s] of at most 4300
    digits and of value [n], the code ["+" s] is answered with status [n]
    even when [s] is 100, 101 or 304 (and then without body), and the code
    ["-" s] is answered with status [-n] and a body naming the code. *)
Theorem handle_status_signed_codes (s : string) (st : app_state) :
  s ≠ ""%string →
  all_digits s = true →
  (String.length s ≤ Py.int_max_str_digits)%nat →
  ∃ n, Py.int s = Some n
       ∧ 0 ≤ n
       ∧ send (make_response
                 (handle_status {["code" := String "+" s]} st).1)
         = Response n (sent_body n (recorded (String "+" s))) []
       ∧ send (make_response
                 (handle_status {["code" := String "-" s]} st).1)
         = Response (- n) (recorded (String "-" s)) [].
Proof.
  intros Hne Hall Hlen.
  destruct (int_all_digits s Hne Hall Hlen) as (n & Hint & Hpos).
  destruct (int_signed s Hall) as [Hplus Hminus].
  rewrite Hint in Hplus, Hminus. cbn in Hminus.
  assert (Hsend : ∀ code m,
            String.get 0 code ∉ [Some "1"%char; Some "3"%char] →
            Py.int code = Some m →
            send (make_response (handle_status {["code" := code]} st).1)
            = Response m (sent_body m (recorded code)) []).
  { intros code m Hhead Hm.
    assert (Hget : get {["code"%string := code]} "code" "200" = code)
      by (unfold get; by rewrite lookup_singleton_eq).
    unfold handle_status. rewrite Hget, bool_decide_eq_false_2, Hm.
    - unfold send, sent_body. cbn. by destruct (bodyless m).
    - intros Hin. apply Hhead.
      repeat (apply elem_of_cons in Hin as [->|Hin]; [set_solver|]).
      by apply elem_of_nil in Hin. }
  exists n. split_and!; [done|done| |].
  - apply Hsend; [cbn; set_solver | exact Hplus].
  - rewrite (Hsend (String "-" s) (- n)); [|cbn; set_solver | exact Hminus].
    unfold sent_body. by rewrite bodyless_nonpositive by lia.
Qed.

Lemma handle_status_signed_codes_witness :
  ∃ n, Py.int "100" = Some n
       ∧ 0 ≤ n
       ∧ send (make_response
                 (handle_status {["code" := "+100"]}%string (init 0)).1)
         = Response n (sent_body n (Text "HTTP +100 recorded")) []
       ∧ send (make_response
                 (handle_status {["code" := "-100"]}%string (init 0)).1)
         = Response (- n) (Text "HTTP -100 recorded") [].
Proof.
  apply (handle_status_signed_codes "100" (init 0)).
  - discriminate.
  - reflexivity.
  - apply Nat.leb_le. vm_compute. reflexivity.
Defined.

(** ** Statuses of the routes *)

(** X16. Every route other than /status answers 200 in every state, and
    a loop iteration sends no response. *)
Theorem only_status_route_leaves_200 (ev : event) (st : app_state) :
  (∀ args, ev ≠ GET_status args) →
  match (serve ev st).1 with
  | Some r => is_tick ev = false ∧ status_code r = 200
  | None => is_tick ev = true
  end.
Proof.
  intros Hno.
  destruct ev as [|form|args|form| | |e]; cbn;
    try reflexivity; try (split; reflexivity).
  by destruct (Hno args).
Qed.

Lemma only_status_route_leaves_200_witness :
  match (serve (POST_action ∅) (init 0)).1 with
  | Some r => is_tick (POST_action ∅) = false ∧ status_code r = 200
  | None => is_tick (POST_action ∅) = true
  end.
Proof.
  apply (only_status_route_leaves_200 (POST_action ∅) (init 0)).
  intros args. discriminate.
Defined.
